(** * A finite-tape Turing machine head: shallow embedding of
      [turing_machine.py] and the properties of its operations.

    The Python class [TuringMachine] keeps a list [memory] and an integer
    [index].  Its methods either return or raise; a raise leaves the object as
    it was at that point, and the caller may go on using it.  We therefore
    model every method as a function from the object to an outcome (value or
    exception) paired with the object afterwards. *)

From Stdlib Require Import ZArith Lia String.
From stdpp Require Import base list.

Local Open Scope Z_scope.

(** ** Exceptions and outcomes *)

(** The two exception classes the module can raise: its own
    [EndOfTapeException] and the built-in [IndexError] of list indexing.
    Each carries its message. *)
Inductive exn : Type :=
  | EndOfTapeException (msg : string)
  | IndexError (msg : string).

Definition is_EndOfTape (e : exn) : bool :=
  match e with
  | EndOfTapeException _ => true
  | IndexError _ => false
  end.

Inductive result (A : Type) : Type :=
  | Ok (a : A)
  | Raise (e : exn).
Arguments Ok {A} a.
Arguments Raise {A} e.

(** ** Python built-ins used by the class *)

(** [range(lo, hi)]: empty when [hi <= lo]. *)
Definition py_range (lo hi : Z) : list Z :=
  map (fun k : nat => lo + Z.of_nat k) (seq 0 (Z.to_nat (hi - lo))).

(** Position designated by a Python list index [i] on a list of [n]
    elements: non-negative indices count from the front, negative ones from
    the back, anything else is out of range. *)
Definition norm_index (n : nat) (i : Z) : option nat :=
  if (0 <=? i) && (i <? Z.of_nat n) then Some (Z.to_nat i)
  else if (- Z.of_nat n <=? i) && (i <? 0) then Some (Z.to_nat (Z.of_nat n + i))
  else None.

Section Tape.

(** Cells hold arbitrary Python objects. *)
Context {Obj : Type}.

(** [l[i]] *)
Definition list_getitem (l : list Obj) (i : Z) : result Obj :=
  match norm_index (length l) i with
  | Some n =>
      match l !! n with
      | Some v => Ok v
      | None => Raise (IndexError "list index out of range")
      end
  | None => Raise (IndexError "list index out of range")
  end.

(** [l[i] = v] *)
Definition list_setitem (l : list Obj) (i : Z) (v : Obj) : result (list Obj) :=
  match norm_index (length l) i with
  | Some n => Ok (<[n := v]> l)
  | None => Raise (IndexError "list assignment index out of range")
  end.

(** ** The object *)

Record TuringMachine : Type := mkTM {
  memory : list Obj;
  index : Z
}.

(** A method: outcome and object afterwards. *)
Definition M (A : Type) : Type := TuringMachine -> result A * TuringMachine.

Definition ret {A} (a : A) : M A := fun self => (Ok a, self).

Definition raise {A} (e : exn) : M A := fun self => (Raise e, self).

Definition bind {A B} (m : M A) (k : A -> M B) : M B :=
  fun self =>
    match m self with
    | (Ok a, self') => k a self'
    | (Raise e, self') => (Raise e, self')
    end.

Definition get_index : M Z := fun self => (Ok (index self), self).

Definition set_index (i : Z) : M unit :=
  fun self => (Ok tt, {| memory := memory self; index := i |}).

Definition get_memory : M (list Obj) := fun self => (Ok (memory self), self).

Definition set_memory (l : list Obj) : M unit :=
  fun self => (Ok tt, {| memory := l; index := index self |}).

Definition lift {A} (r : result A) : M A := fun self => (r, self).

End Tape.

Arguments TuringMachine Obj : clear implicits.
Arguments M Obj A : clear implicits.
Arguments mkTM {Obj} memory index.

Declare Scope tm_scope.
Delimit Scope tm_scope with tm.
Notation "x <- m ;; k" := (bind m (fun x => k))
  (at level 100, m at next level, right associativity) : tm_scope.
Notation "m ;;; k" := (bind m (fun _ => k))
  (at level 100, right associativity) : tm_scope.

Section Methods.

(** [zero] is the integer object [0] the constructor fills the tape with. *)
Context {Obj : Type} (zero : Obj).

(** [TuringMachine(tape_size, initial_tape_index)]: [__init__] has no
    raise and no check of its arguments. *)
Definition init (tape_size initial_tape_index : Z) : result (TuringMachine Obj) :=
  Ok {| memory := map (fun _ => zero) (py_range 0 tape_size);
        index := initial_tape_index |}.

(** [__len__] *)
Definition len (self : TuringMachine Obj) : Z := Z.of_nat (length (memory self)).

Definition move_left : M Obj unit :=
  (i <- get_index ;;
   if i =? 0
   then raise (EndOfTapeException "Unable to move left, index is at 0")
   else set_index (i - 1))%tm.

Definition get_len : M Obj Z := fun self => (Ok (len self), self).

Definition move_right : M Obj unit :=
  (i <- get_index ;; n <- get_len ;;
   if i =? n - 1
   then raise (EndOfTapeException "Unable to move right, reached end of the tape")
   else set_index (i + 1))%tm.

(** The [value] property: getter. *)
Definition value : M Obj Obj :=
  (l <- get_memory ;; i <- get_index ;; lift (list_getitem l i))%tm.

(** The [value] property: setter.  The list is updated in place, so the
    object holds the updated list afterwards. *)
Definition value_set (value_to_set : Obj) : M Obj unit :=
  (l <- get_memory ;; i <- get_index ;;
   l' <- lift (list_setitem l i value_to_set) ;;
   set_memory l')%tm.

(** ** Callers: a sequence of operations

    A caller that catches [EndOfTapeException] (or any exception) goes on
    with the object as the failed call left it. *)

Inductive op : Type :=
  | MoveLeft
  | MoveRight
  | ReadCurrent
  | WriteCurrent (v : Obj).

Definition after (o : op) (self : TuringMachine Obj) : TuringMachine Obj :=
  match o with
  | MoveLeft => snd (move_left self)
  | MoveRight => snd (move_right self)
  | ReadCurrent => snd (value self)
  | WriteCurrent v => snd (value_set v self)
  end.

Definition run (ops : list op) (self : TuringMachine Obj) : TuringMachine Obj :=
  fold_left (fun s o => after o s) ops self.

(** ** Predicates of the specification *)

(** I1: the head is on the tape. *)
Definition I1 (self : TuringMachine Obj) : Prop :=
  0 <= index self < len self.

(** I1 together with I2 for a tape built with [L] cells. *)
Definition Inv (L : Z) (self : TuringMachine Obj) : Prop :=
  I1 self /\ len self = L.

(** A head position [h] lies in [[0, length - 1]]. *)
Definition on_tape (self : TuringMachine Obj) (h : Z) : Prop :=
  0 <= h <= len self - 1.

Definition raises {A} (out : result A * TuringMachine Obj) (e : exn) : Prop :=
  fst out = Raise e.

Definition raises_EndOfTape {A} (out : result A * TuringMachine Obj) : Prop :=
  exists msg, raises out (EndOfTapeException msg).

(** The invariant as an unconditional property of construction. *)
Definition established (tape_size initial_tape_index : Z) : Prop :=
  exists self, init tape_size initial_tape_index = Ok self /\ Inv (len self) self.

(** The error taxonomy of section 7, read at one tape state. *)
Definition EndOfTape_exactly_at_boundary (self : TuringMachine Obj) : Prop :=
  (raises_EndOfTape (move_left self) <-> ~ on_tape self (index self - 1)) /\
  (raises_EndOfTape (move_right self) <-> ~ on_tape self (index self + 1)).

Definition only_EndOfTape (self : TuringMachine Obj) : Prop :=
  forall e,
    raises (move_left self) e \/ raises (move_right self) e \/
    raises (value self) e \/ (exists v, raises (value_set v self) e) ->
    is_EndOfTape e = true.

Definition error_taxonomy (self : TuringMachine Obj) : Prop :=
  EndOfTape_exactly_at_boundary self /\ only_EndOfTape self.

End Methods.

(** A tape of four integer cells, all [0], with the head at [i]: the fixture
    of the unit tests. *)
Definition tape4 (i : Z) : TuringMachine Z := mkTM [0; 0; 0; 0] i.

(** ** Callers' loops and the bounds of list indexing *)

Section Callers.

Context {Obj : Type}.

(** [for _ in range(n): m()]: the loop ends at the first raise. *)
Fixpoint times (n : nat) (m : M Obj unit) : M Obj unit :=
  match n with
  | O => ret tt
  | S n' => (m ;;; times n' m)%tm
  end.

Definition is_write (o : @op Obj) : bool :=
  match o with
  | WriteCurrent _ => true
  | _ => false
  end.

(** The head is an index Python accepts on [memory]: on the tape, or
    negative and counted from the back. *)
Definition in_bounds (self : TuringMachine Obj) : Prop :=
  - len self <= index self < len self.

End Callers.

(** ** The unit tests of [test_turing_machine.py]

    Cells and expected values are integers there.  A test passes, fails (an
    assertion does not hold) or ends in an error (an exception nobody
    expected, in the test or in its [setUp]). *)

Inductive verdict : Type :=
  | Passed
  | Failed
  | Errored (e : exn).

Definition is_passed (r : verdict) : bool :=
  match r with
  | Passed => true
  | _ => false
  end.

Definition assertEqual (first second : Z) : verdict :=
  if first =? second then Passed else Failed.

(** Two statements in a row: the second runs when the first passed. *)
Definition and_then (first second : verdict) : verdict :=
  match first with
  | Passed => second
  | _ => first
  end.

(** [with self.assertRaises(EndOfTapeException): call]: no raise is a
    failure, another exception goes through as an error. *)
Definition assertRaises_EndOfTape {A} (out : result A * TuringMachine Z) : verdict :=
  match fst out with
  | Ok _ => Failed
  | Raise e => if is_EndOfTape e then Passed else Errored e
  end.

Section Tests.

(** The two fixture parameters; the repository sets them to 4 and 0. *)
Variables machine_length initial_tape_index : Z.

(** [TestTuringMachine.setUp] *)
Definition setUp : result (TuringMachine Z) :=
  init 0 machine_length initial_tape_index.

Definition with_fixture (fixture : result (TuringMachine Z))
    (test : TuringMachine Z -> verdict) : verdict :=
  match fixture with
  | Ok machine => test machine
  | Raise e => Errored e
  end.

(** [TestConstructor] builds the machine in the test itself. *)
Definition test_instantiation : verdict :=
  with_fixture (init 0 machine_length initial_tape_index) (fun machine =>
    and_then (assertEqual machine_length (Z.of_nat (length (memory machine))))
             (assertEqual initial_tape_index (index machine))).

Definition test_length : verdict :=
  with_fixture setUp (fun machine => assertEqual machine_length (len machine)).

Definition test_move_left_allowed : verdict :=
  with_fixture setUp (fun machine =>
    let expected_final_tape_index := 0 in
    let machine := snd (set_index 1 machine) in
    match move_left machine with
    | (Ok _, machine) => assertEqual expected_final_tape_index (index machine)
    | (Raise e, _) => Errored e
    end).

Definition test_move_left_exception_thrown : verdict :=
  with_fixture setUp (fun machine =>
    let machine := snd (set_index 0 machine) in
    assertRaises_EndOfTape (move_left machine)).

Definition test_move_right_allowed : verdict :=
  with_fixture setUp (fun machine =>
    let expected_final_tape_index := 2 in
    let machine := snd (set_index 1 machine) in
    match move_right machine with
    | (Ok _, machine) => assertEqual expected_final_tape_index (index machine)
    | (Raise e, _) => Errored e
    end).

Definition test_move_right_exception_thrown : verdict :=
  with_fixture setUp (fun machine =>
    let machine := snd (set_index (len machine - 1) machine) in
    assertRaises_EndOfTape (move_right machine)).

(** [TestRead.setUp]: the base fixture, then
    [machine.memory[machine.index] = 1] on the list itself. *)
Definition TestRead_setUp : result (TuringMachine Z) :=
  match setUp with
  | Ok machine =>
      let expected_read_value := 1 in
      match list_setitem (memory machine) (index machine) expected_read_value with
      | Ok l => Ok (snd (set_memory l machine))
      | Raise e => Raise e
      end
  | Raise e => Raise e
  end.

Definition test_read : verdict :=
  with_fixture TestRead_setUp (fun machine =>
    let expected_read_value := 1 in
    match value machine with
    | (Ok v, _) => assertEqual expected_read_value v
    | (Raise e, _) => Errored e
    end).

Definition test_write : verdict :=
  with_fixture setUp (fun machine =>
    let data_to_write := 2 in
    match value_set data_to_write machine with
    | (Ok _, machine) =>
        match list_getitem (memory machine) (index machine) with
        | Ok v => assertEqual data_to_write v
        | Raise e => Errored e
        end
    | (Raise e, _) => Errored e
    end).

Definition suite : list verdict :=
  [ test_instantiation; test_length;
    test_move_left_allowed; test_move_left_exception_thrown;
    test_move_right_allowed; test_move_right_exception_thrown;
    test_read; test_write ].

Definition suite_passes : bool := forallb is_passed suite.

End Tests.

(** * Properties *)

(** ** Built-ins *)

Lemma py_range_length (lo hi : Z) : length (py_range lo hi) = Z.to_nat (hi - lo).
Proof. unfold py_range. now rewrite length_map, length_seq. Qed.

Lemma norm_index_on_tape (n : nat) (i : Z) :
  0 <= i < Z.of_nat n -> norm_index n i = Some (Z.to_nat i).
Proof.
  intros [Hlo Hhi]. unfold norm_index.
  apply Z.leb_le in Hlo. apply Z.ltb_lt in Hhi.
  now rewrite Hlo, Hhi.
Qed.

Lemma norm_index_bound (n : nat) (i : Z) (p : nat) :
  norm_index n i = Some p -> (p < n)%nat.
Proof.
  unfold norm_index.
  destruct (0 <=? i) eqn:H0; destruct (i <? Z.of_nat n) eqn:H1; simpl;
    destruct (- Z.of_nat n <=? i) eqn:H2; destruct (i <? 0) eqn:H3; simpl;
    intros [= <-]; lia.
Qed.

(** Python's own bounds: indexing a list of [n] elements returns for every
    index in [[-n, n)], so the inner [None] branch of [list_getitem] is never
    taken. *)
Lemma list_getitem_in_bounds {Obj : Type} (l : list Obj) (i : Z) :
  - Z.of_nat (length l) <= i < Z.of_nat (length l) ->
  exists v, list_getitem l i = Ok v.
Proof.
  intros Hi. unfold list_getitem.
  destruct (norm_index (length l) i) as [p|] eqn:Hp.
  - destruct (lookup_lt_is_Some_2 l p (norm_index_bound _ _ _ Hp)) as [v Hv].
    exists v. now rewrite Hv.
  - exfalso. unfold norm_index in Hp.
    destruct (0 <=? i) eqn:H0; destruct (i <? Z.of_nat (length l)) eqn:H1;
      destruct (- Z.of_nat (length l) <=? i) eqn:H2; destruct (i <? 0) eqn:H3;
      simpl in Hp; try discriminate; lia.
Qed.

Section Properties.

Context {Obj : Type} (zero : Obj).

Implicit Types (self : TuringMachine Obj) (v : Obj).

Lemma init_memory (tape_size initial_tape_index : Z) :
  init zero tape_size initial_tape_index =
    Ok (mkTM (replicate (Z.to_nat tape_size) zero) initial_tape_index).
Proof.
  unfold init. do 2 f_equal.
  assert (E : forall l : list Z, map (fun _ => zero) l = replicate (length l) zero)
    by (induction l as [|z l IH]; simpl; [reflexivity | now rewrite IH]).
  now rewrite E, py_range_length, Z.sub_0_r.
Qed.

Lemma move_left_boundary self :
  index self = 0 ->
  move_left self =
    (Raise (EndOfTapeException "Unable to move left, index is at 0"), self).
Proof. intros H. unfold move_left, bind, get_index, raise. now rewrite H. Qed.

Lemma move_left_inner self :
  index self <> 0 ->
  move_left self = (Ok tt, mkTM (memory self) (index self - 1)).
Proof.
  intros H. unfold move_left, bind, get_index, set_index.
  apply Z.eqb_neq in H. now rewrite H.
Qed.

Lemma move_right_boundary self :
  index self = len self - 1 ->
  move_right self =
    (Raise (EndOfTapeException "Unable to move right, reached end of the tape"),
     self).
Proof.
  intros H. unfold move_right, bind, get_index, get_len, raise.
  apply Z.eqb_eq in H. now rewrite H.
Qed.

Lemma move_right_inner self :
  index self <> len self - 1 ->
  move_right self = (Ok tt, mkTM (memory self) (index self + 1)).
Proof.
  intros H. unfold move_right, bind, get_index, get_len, set_index.
  apply Z.eqb_neq in H. now rewrite H.
Qed.

Lemma value_on_tape self :
  I1 self ->
  exists v, memory self !! Z.to_nat (index self) = Some v /\
            value self = (Ok v, self).
Proof.
  intros HI. unfold I1, len in HI.
  destruct (lookup_lt_is_Some_2 (memory self) (Z.to_nat (index self)))
    as [v Hv]; [lia|].
  exists v. split; [exact Hv|].
  unfold value, bind, get_memory, get_index, lift, list_getitem.
  now rewrite norm_index_on_tape, Hv.
Qed.

Lemma value_set_on_tape self v :
  I1 self ->
  value_set v self =
    (Ok tt, mkTM (<[Z.to_nat (index self) := v]> (memory self)) (index self)).
Proof.
  intros HI. unfold I1, len in HI.
  unfold value_set, bind, get_memory, get_index, lift, list_setitem, set_memory.
  now rewrite norm_index_on_tape.
Qed.

(** Whatever the state, a write never changes the head or the number of
    cells, and a read changes nothing. *)
Lemma value_state self : snd (value self) = self.
Proof.
  unfold value, bind, get_memory, get_index, lift. simpl.
  now destruct (list_getitem (memory self) (index self)).
Qed.

Lemma value_set_index self v : index (snd (value_set v self)) = index self.
Proof.
  unfold value_set, bind, get_memory, get_index, lift, list_setitem, set_memory.
  simpl. now destruct (norm_index (length (memory self)) (index self)).
Qed.

Lemma value_set_len self v : len (snd (value_set v self)) = len self.
Proof.
  unfold value_set, bind, get_memory, get_index, lift, list_setitem, set_memory.
  simpl. destruct (norm_index (length (memory self)) (index self)); simpl; [|reflexivity].
  unfold len. simpl. now rewrite length_insert.
Qed.

Lemma after_Inv (L : Z) (o : op) self : Inv L self -> Inv L (after o self).
Proof.
  intros [HI HL]. unfold I1 in HI.
  destruct o as [| | |v]; cbn [after].
  - destruct (Z.eq_dec (index self) 0) as [E|E].
    + rewrite (move_left_boundary _ E). simpl. now split.
    + rewrite (move_left_inner _ E). unfold Inv, I1, len in *. simpl. lia.
  - destruct (Z.eq_dec (index self) (len self - 1)) as [E|E].
    + rewrite (move_right_boundary _ E). simpl. now split.
    + rewrite (move_right_inner _ E). unfold Inv, I1, len in *. simpl. lia.
  - rewrite value_state. now split.
  - unfold Inv, I1. rewrite value_set_index, value_set_len. now split.
Qed.

Lemma run_Inv (L : Z) (ops : list op) :
  forall self, Inv L self -> Inv L (run ops self).
Proof.
  unfold run. induction ops as [|o ops IH]; intros self H; simpl.
  - exact H.
  - apply IH. now apply after_Inv.
Qed.

End Properties.

(** ** The operations, one by one *)

Section Operations.

Context {Obj : Type} (zero : Obj).

Implicit Types (self : TuringMachine Obj) (v : Obj).

(** C1. [move_left] at head 0 raises [EndOfTapeException] and leaves the
    object (head included) as it was; at any other head it returns, the head
    is one less and the cells are the same list. *)
Theorem move_left_spec self :
  (index self = 0 ->
     raises_EndOfTape (move_left self) /\ snd (move_left self) = self) /\
  (index self <> 0 ->
     exists self', move_left self = (Ok tt, self') /\
                   index self' = index self - 1 /\
                   memory self' = memory self).
Proof.
  split; intros H.
  - rewrite (move_left_boundary _ H). split; [|reflexivity].
    eexists. reflexivity.
  - rewrite (move_left_inner _ H). eexists. split; [reflexivity|]. now split.
Qed.

(** C2. [move_right] at head [len - 1] raises [EndOfTapeException] and
    leaves the object as it was; at any other head it returns, the head is
    one more and the cells are the same list. *)
Theorem move_right_spec self :
  (index self = len self - 1 ->
     raises_EndOfTape (move_right self) /\ snd (move_right self) = self) /\
  (index self <> len self - 1 ->
     exists self', move_right self = (Ok tt, self') /\
                   index self' = index self + 1 /\
                   memory self' = memory self).
Proof.
  split; intros H.
  - rewrite (move_right_boundary _ H). split; [|reflexivity].
    eexists. reflexivity.
  - rewrite (move_right_inner _ H). eexists. split; [reflexivity|]. now split.
Qed.

(** C3. For [L >= 1] and [0 <= i < L], the constructor returns an object
    with exactly [L] cells, every one of them the zero object; [len] of it
    is [L] and its head is [i]. *)
Theorem init_spec (L i : Z) :
  1 <= L -> 0 <= i < L ->
  exists self,
    init zero L i = Ok self /\
    Z.of_nat (length (memory self)) = L /\
    Forall (fun c => c = zero) (memory self) /\
    len self = L /\
    index self = i.
Proof.
  intros HL Hi. rewrite init_memory. eexists. split; [reflexivity|].
  unfold len. simpl. rewrite length_replicate.
  repeat split; try lia.
  apply Forall_forall. intros c Hc.
  now apply elem_of_replicate in Hc as [-> _].
Qed.

(** C4, as amended. Built with arguments [0 <= i < L], the object has its
    head on the tape and [L] cells; from any such object, each of
    [move_left], [move_right], the read and the write leaves an object with
    its head on the tape and [L] cells, whether it returned or raised; and
    so does every sequence of them. *)
Theorem invariant_from_valid_construction (L : Z) :
  (forall i, 0 <= i < L ->
     exists self, init zero L i = Ok self /\ Inv L self) /\
  (forall self, Inv L self ->
     Inv L (snd (move_left self)) /\
     Inv L (snd (move_right self)) /\
     Inv L (snd (value self)) /\
     forall v, Inv L (snd (value_set v self))) /\
  (forall self ops, Inv L self -> Inv L (run ops self)).
Proof.
  split; [|split].
  - intros i Hi. rewrite init_memory. eexists. split; [reflexivity|].
    unfold Inv, I1, len. simpl. rewrite length_replicate. lia.
  - intros self H. split; [|split; [|split]].
    + exact (after_Inv L MoveLeft self H).
    + exact (after_Inv L MoveRight self H).
    + exact (after_Inv L ReadCurrent self H).
    + intros v. exact (after_Inv L (WriteCurrent v) self H).
  - intros self ops H. now apply run_Inv.
Qed.

(** C5. With the head at [h], [0 < h < len - 1], moving left then right
    returns with the object as it was (so the head is [h] again), and so
    does moving right then left. *)
Theorem move_round_trip self (h : Z) :
  index self = h -> 0 < h < len self - 1 ->
  (move_left ;;; move_right)%tm self = (Ok tt, self) /\
  (move_right ;;; move_left)%tm self = (Ok tt, self).
Proof.
  intros <- Hh. destruct self as [mem i]. unfold len in Hh. simpl in Hh.
  split; unfold bind.
  - rewrite move_left_inner by (simpl; lia).
    rewrite move_right_inner by (unfold len; simpl; lia).
    simpl. do 2 f_equal. lia.
  - rewrite move_right_inner by (unfold len; simpl; lia).
    rewrite move_left_inner by (simpl; lia).
    simpl. do 2 f_equal. lia.
Qed.

(** C6. With the head on the tape, writing [v] and reading at once
    returns [v]. *)
Theorem read_after_write self v :
  I1 self -> fst ((value_set v ;;; value)%tm self) = Ok v.
Proof.
  intros HI. unfold bind. rewrite (value_set_on_tape _ _ HI).
  unfold I1, len in HI.
  unfold value, bind, get_memory, get_index, lift, list_getitem. simpl.
  rewrite length_insert, norm_index_on_tape by lia.
  now rewrite list_lookup_insert_eq by lia.
Qed.

(** C7. With the head on the tape at [h], the write returns and the cell
    at every position other than [h] holds what it held before. *)
Theorem write_frame self v (h : Z) (p : nat) :
  I1 self -> index self = h -> Z.of_nat p <> h ->
  exists self', value_set v self = (Ok tt, self') /\
                memory self' !! p = memory self !! p.
Proof.
  intros HI <- Hp. rewrite (value_set_on_tape _ _ HI).
  eexists. split; [reflexivity|]. simpl.
  apply list_lookup_insert_ne. unfold I1 in HI. lia.
Qed.

(** C8, as amended. With the head on the tape, [move_left] raises
    [EndOfTapeException] exactly when [index - 1] is outside
    [[0, len - 1]], [move_right] exactly when [index + 1] is; no operation
    raises anything else, and the constructor never raises. *)
Theorem error_taxonomy_on_tape self :
  I1 self ->
  error_taxonomy self /\
  (forall tape_size i e, init zero tape_size i <> Raise e).
Proof.
  intros HI. split; [|intros; discriminate].
  pose proof HI as HI'. unfold I1 in HI'.
  split.
  - unfold EndOfTape_exactly_at_boundary, raises_EndOfTape, raises, on_tape.
    split; split.
    + intros [msg Hm]. destruct (Z.eq_dec (index self) 0) as [E|E]; [lia|].
      rewrite (move_left_inner _ E) in Hm. discriminate.
    + intros Hout. rewrite move_left_boundary by lia. eexists. reflexivity.
    + intros [msg Hm].
      destruct (Z.eq_dec (index self) (len self - 1)) as [E|E]; [lia|].
      rewrite (move_right_inner _ E) in Hm. discriminate.
    + intros Hout. rewrite move_right_boundary by lia. eexists. reflexivity.
  - intros e. unfold raises. intros [H|[H|[H|[v H]]]].
    + destruct (Z.eq_dec (index self) 0) as [E|E].
      * rewrite (move_left_boundary _ E) in H. now inversion H.
      * rewrite (move_left_inner _ E) in H. discriminate.
    + destruct (Z.eq_dec (index self) (len self - 1)) as [E|E].
      * rewrite (move_right_boundary _ E) in H. now inversion H.
      * rewrite (move_right_inner _ E) in H. discriminate.
    + destruct (value_on_tape _ HI) as (w & _ & Hw). rewrite Hw in H.
      discriminate.
    + rewrite (value_set_on_tape _ _ HI) in H. discriminate.
Qed.

(** C9. With the head on the tape, the read returns the object stored in
    the cell under the head, leaves the object as it was, and does not
    raise. *)
Theorem value_spec self :
  I1 self ->
  exists v, memory self !! Z.to_nat (index self) = Some v /\
            value self = (Ok v, self).
Proof. exact (value_on_tape self). Qed.

(** C10. The constructor checks nothing: for every [tape_size >= 0] and
    every integer [i] it returns an object with [tape_size] cells whose head
    is [i] itself; in particular some object it returns has its head off
    the tape. *)
Theorem init_unchecked :
  (forall tape_size i, 0 <= tape_size ->
     exists self, init zero tape_size i = Ok self /\
                  index self = i /\ len self = tape_size) /\
  (exists tape_size i self,
     0 <= tape_size /\ init zero tape_size i = Ok self /\ ~ I1 self).
Proof.
  split.
  - intros n i Hn. rewrite init_memory. eexists. split; [reflexivity|].
    unfold len. simpl. rewrite length_replicate. lia.
  - exists 4, 7. eexists. split; [lia|]. split; [apply init_memory|].
    unfold I1, len. simpl. lia.
Qed.

End Operations.

(** ** Runs on the four-cell tape of the unit tests *)

Example scenario_A : init 0 4 0 = Ok (tape4 0) /\ len (tape4 0) = 4.
Proof. split; reflexivity. Qed.

Example scenario_B :
  move_left (tape4 0) =
    (Raise (EndOfTapeException "Unable to move left, index is at 0"), tape4 0).
Proof. reflexivity. Qed.

Example scenario_C :
  init 0 4 1 = Ok (tape4 1) /\
  move_right (tape4 1) = (Ok tt, tape4 2) /\
  move_right (tape4 2) = (Ok tt, tape4 3) /\
  move_right (tape4 3) =
    (Raise (EndOfTapeException "Unable to move right, reached end of the tape"),
     tape4 3).
Proof. repeat split; reflexivity. Qed.

Example scenario_D :
  (value_set 1 ;;; x <- value ;; move_right ;;; y <- value ;; ret (x, y))%tm
    (tape4 0) = (Ok (1, 0), mkTM [1; 0; 0; 0] 1).
Proof. reflexivity. Qed.

(** Off the tape, list indexing decides: a negative head within the list
    reads from the back, anything else raises [IndexError]. *)
Example value_negative_head : value (mkTM [1; 2; 3] (-1)) = (Ok 3, mkTM [1; 2; 3] (-1)).
Proof. reflexivity. Qed.

Example value_off_tape :
  value (tape4 7) = (Raise (IndexError "list index out of range"), tape4 7).
Proof. reflexivity. Qed.

Example value_set_off_tape :
  value_set 5 (tape4 7) =
    (Raise (IndexError "list assignment index out of range"), tape4 7).
Proof. reflexivity. Qed.

(** ** Instances of the theorems above *)

Lemma move_left_spec_witness :
  (raises_EndOfTape (move_left (tape4 0)) /\ snd (move_left (tape4 0)) = tape4 0) /\
  (exists self', move_left (tape4 2) = (Ok tt, self') /\
                 index self' = 2 - 1 /\ memory self' = [0; 0; 0; 0]).
Proof.
  split.
  - apply (proj1 (move_left_spec (tape4 0))). reflexivity.
  - apply (proj2 (move_left_spec (tape4 2))). discriminate.
Defined.

Lemma move_right_spec_witness :
  (raises_EndOfTape (move_right (tape4 3)) /\ snd (move_right (tape4 3)) = tape4 3) /\
  (exists self', move_right (tape4 1) = (Ok tt, self') /\
                 index self' = 1 + 1 /\ memory self' = [0; 0; 0; 0]).
Proof.
  split.
  - apply (proj1 (move_right_spec (tape4 3))). reflexivity.
  - apply (proj2 (move_right_spec (tape4 1))). discriminate.
Defined.

Lemma init_spec_witness :
  exists self,
    init 0 4 1 = Ok self /\
    Z.of_nat (length (memory self)) = 4 /\
    Forall (fun c => c = 0) (memory self) /\
    len self = 4 /\
    index self = 1.
Proof. apply (init_spec 0 4 1); lia. Defined.

Lemma invariant_from_valid_construction_witness :
  (exists self, init 0 4 1 = Ok self /\ Inv 4 self) /\
  Inv 4 (snd (move_left (tape4 0))) /\
  Inv 4 (run [MoveRight; WriteCurrent 5; MoveRight; MoveRight; MoveRight; ReadCurrent]
           (tape4 0)).
Proof.
  assert (H0 : Inv 4 (tape4 0)) by (unfold Inv, I1, len; simpl; lia).
  destruct (invariant_from_valid_construction 0 4) as (Hc & Hs & Hr).
  split; [|split].
  - apply Hc. lia.
  - apply (Hs (tape4 0) H0).
  - apply Hr. exact H0.
Defined.

Lemma move_round_trip_witness :
  (move_left ;;; move_right)%tm (tape4 1) = (Ok tt, tape4 1) /\
  (move_right ;;; move_left)%tm (tape4 1) = (Ok tt, tape4 1).
Proof. apply (move_round_trip (tape4 1) 1); [reflexivity | unfold len; simpl; lia]. Defined.

Lemma read_after_write_witness :
  fst ((value_set 9 ;;; value)%tm (tape4 2)) = Ok 9.
Proof. apply (read_after_write (tape4 2) 9). unfold I1, len; simpl; lia. Defined.

Lemma write_frame_witness :
  exists self', value_set 9 (tape4 2) = (Ok tt, self') /\
                memory self' !! 3%nat = memory (tape4 2) !! 3%nat.
Proof.
  apply (write_frame (tape4 2) 9 2 3%nat);
    [unfold I1, len; simpl; lia | reflexivity | lia].
Defined.

Lemma error_taxonomy_on_tape_witness :
  error_taxonomy (tape4 3) /\
  (forall tape_size i e, init 0 tape_size i <> Raise e).
Proof. apply (error_taxonomy_on_tape 0 (tape4 3)). unfold I1, len; simpl; lia. Defined.

Lemma value_spec_witness :
  exists v, memory (tape4 2) !! Z.to_nat (index (tape4 2)) = Some v /\
            value (tape4 2) = (Ok v, tape4 2).
Proof. apply (value_spec (tape4 2)). unfold I1, len; simpl; lia. Defined.

Lemma init_unchecked_witness :
  exists self, init 0 4 7 = Ok self /\ index self = 7 /\ len self = 4.
Proof. apply (proj1 (init_unchecked 0) 4 7). lia. Defined.

(** ** Where the unconditional readings fail *)

(** C4 as stated: the constructor accepts [(4, 7)], and the object it returns
    has its head off the tape. *)
Lemma invariant_not_established : ~ established 0 4 7.
Proof.
  intros (self & Hinit & [HI _]).
  rewrite init_memory in Hinit. injection Hinit as <-.
  unfold I1, len in HI. simpl in HI. lia.
Qed.

(** C8 as stated: on the object built by [(4, 7)], [move_right] returns
    although it takes the head to 8, outside [[0, 3]]. *)
Lemma error_taxonomy_off_tape :
  init 0 4 7 = Ok (tape4 7) /\ ~ error_taxonomy (tape4 7).
Proof.
  split; [reflexivity|].
  intros [[_ [_ HR]] _].
  destruct HR as [msg Hm].
  - unfold on_tape, len. simpl. lia.
  - discriminate Hm.
Qed.

(** On the same object the read and the write raise [IndexError], which is
    not an [EndOfTapeException]. *)
Lemma only_EndOfTape_off_tape : ~ only_EndOfTape (tape4 7).
Proof.
  intros H.
  specialize (H (IndexError "list index out of range")).
  assert (E : is_EndOfTape (IndexError "list index out of range") = true)
    by (apply H; right; right; left; reflexivity).
  discriminate E.
Qed.

(** * Beyond the tape: every state, loops and the unit tests *)

(** ** List indexing at any head *)

Lemma norm_index_from_back (n : nat) (i : Z) :
  - Z.of_nat n <= i < 0 -> norm_index n i = Some (Z.to_nat (Z.of_nat n + i)).
Proof.
  intros [Hlo Hhi]. unfold norm_index.
  assert (E0 : (0 <=? i) = false) by (apply Z.leb_gt; lia).
  apply Z.leb_le in Hlo. apply Z.ltb_lt in Hhi.
  now rewrite E0, Hlo, Hhi.
Qed.

Lemma norm_index_outside (n : nat) (i : Z) :
  ~ (- Z.of_nat n <= i < Z.of_nat n) -> norm_index n i = None.
Proof.
  intros H. unfold norm_index.
  destruct (0 <=? i) eqn:H0; destruct (i <? Z.of_nat n) eqn:H1;
    destruct (- Z.of_nat n <=? i) eqn:H2; destruct (i <? 0) eqn:H3;
    simpl; try reflexivity; exfalso; lia.
Qed.

Lemma norm_index_inside (n : nat) (i : Z) :
  - Z.of_nat n <= i < Z.of_nat n ->
  exists p, norm_index n i = Some p /\ (p < n)%nat.
Proof.
  intros H. destruct (Z_lt_le_dec i 0) as [Hneg|Hpos].
  - rewrite norm_index_from_back by lia. eexists. split; [reflexivity|lia].
  - rewrite norm_index_on_tape by lia. eexists. split; [reflexivity|lia].
Qed.

Section AnyState.

Context {Obj : Type} (zero : Obj).

Implicit Types (self : TuringMachine Obj) (v : Obj).

Lemma value_at self (p : nat) :
  norm_index (length (memory self)) (index self) = Some p ->
  exists v, memory self !! p = Some v /\ value self = (Ok v, self).
Proof.
  intros Hp.
  destruct (lookup_lt_is_Some_2 (memory self) p (norm_index_bound _ _ _ Hp))
    as [v Hv].
  exists v. split; [exact Hv|].
  unfold value, bind, get_memory, get_index, lift, list_getitem.
  now rewrite Hp, Hv.
Qed.

Lemma value_outside self :
  norm_index (length (memory self)) (index self) = None ->
  value self = (Raise (IndexError "list index out of range"), self).
Proof.
  intros Hp. unfold value, bind, get_memory, get_index, lift, list_getitem.
  now rewrite Hp.
Qed.

Lemma value_set_at self v (p : nat) :
  norm_index (length (memory self)) (index self) = Some p ->
  value_set v self = (Ok tt, mkTM (<[p := v]> (memory self)) (index self)).
Proof.
  intros Hp.
  unfold value_set, bind, get_memory, get_index, lift, list_setitem, set_memory.
  now rewrite Hp.
Qed.

Lemma value_set_outside self v :
  norm_index (length (memory self)) (index self) = None ->
  value_set v self =
    (Raise (IndexError "list assignment index out of range"), self).
Proof.
  intros Hp.
  unfold value_set, bind, get_memory, get_index, lift, list_setitem, set_memory.
  now rewrite Hp.
Qed.

Lemma move_left_memory self : memory (snd (move_left self)) = memory self.
Proof.
  destruct (Z.eq_dec (index self) 0) as [E|E].
  - now rewrite (move_left_boundary _ E).
  - now rewrite (move_left_inner _ E).
Qed.

Lemma move_right_memory self : memory (snd (move_right self)) = memory self.
Proof.
  destruct (Z.eq_dec (index self) (len self - 1)) as [E|E].
  - now rewrite (move_right_boundary _ E).
  - now rewrite (move_right_inner _ E).
Qed.

Lemma after_len (o : op) self : len (after o self) = len self.
Proof.
  destruct o as [| | |v]; cbn [after].
  - unfold len. now rewrite move_left_memory.
  - unfold len. now rewrite move_right_memory.
  - now rewrite value_state.
  - apply value_set_len.
Qed.

Lemma after_memory (o : op) self :
  is_write o = false -> memory (after o self) = memory self.
Proof.
  destruct o as [| | |v]; cbn [after is_write]; intros Hw.
  - apply move_left_memory.
  - apply move_right_memory.
  - now rewrite value_state.
  - discriminate Hw.
Qed.

Lemma run_len (ops : list op) : forall self, len (run ops self) = len self.
Proof.
  unfold run. induction ops as [|o ops IH]; intros self; simpl.
  - reflexivity.
  - now rewrite IH, after_len.
Qed.

Lemma run_memory (ops : list op) :
  forallb (fun o => negb (is_write o)) ops = true ->
  forall self, memory (run ops self) = memory self.
Proof.
  unfold run. induction ops as [|o ops IH]; simpl; intros Hw self.
  - reflexivity.
  - apply andb_prop in Hw as [Ho Hops].
    rewrite (IH Hops). apply after_memory.
    now destruct (is_write o).
Qed.

(** X1. From any object, on or off the tape, no sequence of operations
    changes the number of cells. *)
Theorem run_keeps_len (ops : list op) self : len (run ops self) = len self.
Proof. apply run_len. Qed.

(** X2. A sequence of operations with no write in it leaves every cell as
    it was, whatever the head and whichever calls raised. *)
Theorem run_without_write_keeps_memory (ops : list op) self :
  forallb (fun o => negb (is_write o)) ops = true ->
  memory (run ops self) = memory self.
Proof. intros Hw. now apply run_memory. Qed.

Lemma times_move_right_free (n : nat) :
  forall self,
    ~ (index self <= len self - 1 < index self + Z.of_nat n) ->
    times n move_right self =
      (Ok tt, mkTM (memory self) (index self + Z.of_nat n)).
Proof.
  induction n as [|n IH]; intros self H.
  - destruct self as [mem i]. simpl. unfold ret. do 2 f_equal. lia.
  - cbn [times]. unfold bind at 1.
    rewrite move_right_inner by lia.
    rewrite IH by (unfold len in *; simpl; lia).
    simpl. do 2 f_equal. lia.
Qed.

Lemma times_move_right_stop (n : nat) :
  forall self,
    index self <= len self - 1 < index self + Z.of_nat n ->
    times n move_right self =
      (Raise (EndOfTapeException "Unable to move right, reached end of the tape"),
       mkTM (memory self) (len self - 1)).
Proof.
  induction n as [|n IH]; intros self H; [lia|].
  cbn [times]. unfold bind at 1.
  destruct (Z.eq_dec (index self) (len self - 1)) as [E|E].
  - rewrite (move_right_boundary _ E). rewrite <- E. now destruct self.
  - rewrite (move_right_inner _ E).
    rewrite IH by (unfold len in *; simpl; lia).
    reflexivity.
Qed.

Lemma times_move_left_free (n : nat) :
  forall self,
    ~ (index self - Z.of_nat n < 0 <= index self) ->
    times n move_left self =
      (Ok tt, mkTM (memory self) (index self - Z.of_nat n)).
Proof.
  induction n as [|n IH]; intros self H.
  - destruct self as [mem i]. simpl. unfold ret. do 2 f_equal. lia.
  - cbn [times]. unfold bind at 1.
    rewrite move_left_inner by lia.
    rewrite IH by (simpl; lia).
    simpl. do 2 f_equal. lia.
Qed.

Lemma times_move_left_stop (n : nat) :
  forall self,
    index self - Z.of_nat n < 0 <= index self ->
    times n move_left self =
      (Raise (EndOfTapeException "Unable to move left, index is at 0"),
       mkTM (memory self) 0).
Proof.
  induction n as [|n IH]; intros self H; [lia|].
  cbn [times]. unfold bind at 1.
  destruct (Z.eq_dec (index self) 0) as [E|E].
  - rewrite (move_left_boundary _ E). rewrite <- E. now destruct self.
  - rewrite (move_left_inner _ E).
    rewrite IH by (simpl; lia).
    reflexivity.
Qed.

(** X3. [n] calls of [move_right] in a row.  When the last cell [len - 1]
    lies among the heads [index, ..., index + n - 1] the loop ends in
    [EndOfTapeException] with the head on the last cell; otherwise (the walk
    stops short of it, or started beyond it) all [n] calls return and the
    head is [index + n].  The cells are untouched either way. *)
Theorem times_move_right_spec (n : nat) self :
  (index self <= len self - 1 < index self + Z.of_nat n ->
     times n move_right self =
       (Raise (EndOfTapeException "Unable to move right, reached end of the tape"),
        mkTM (memory self) (len self - 1))) /\
  (~ (index self <= len self - 1 < index self + Z.of_nat n) ->
     times n move_right self =
       (Ok tt, mkTM (memory self) (index self + Z.of_nat n))).
Proof. split; [apply times_move_right_stop | apply times_move_right_free]. Qed.

(** X4. [n] calls of [move_left] in a row.  When cell 0 lies among the
    heads [index, ..., index - n + 1] the loop ends in [EndOfTapeException]
    with the head at 0; otherwise (the walk stops short of it, or started
    below it) all [n] calls return and the head is [index - n]. *)
Theorem times_move_left_spec (n : nat) self :
  (index self - Z.of_nat n < 0 <= index self ->
     times n move_left self =
       (Raise (EndOfTapeException "Unable to move left, index is at 0"),
        mkTM (memory self) 0)) /\
  (~ (index self - Z.of_nat n < 0 <= index self) ->
     times n move_left self =
       (Ok tt, mkTM (memory self) (index self - Z.of_nat n))).
Proof. split; [apply times_move_left_stop | apply times_move_left_free]. Qed.

End AnyState.

(** ** Reading and writing at any head *)

Section ReadWrite.

Context {Obj : Type} (zero : Obj).

Implicit Types (self : TuringMachine Obj) (v : Obj).

(** X5. The read returns exactly when the head is an index Python accepts
    on the list, [-len <= index < len]; otherwise it raises the built-in
    [IndexError].  The object is unchanged in both cases. *)
Theorem value_bounds self :
  (in_bounds self -> exists v, value self = (Ok v, self)) /\
  (~ in_bounds self ->
     value self = (Raise (IndexError "list index out of range"), self)).
Proof.
  unfold in_bounds, len. split; intros H.
  - destruct (norm_index_inside _ _ H) as (p & Hp & _).
    destruct (value_at _ _ Hp) as (v & _ & Hv). now exists v.
  - apply value_outside. now apply norm_index_outside.
Qed.

(** X6. A negative head within [-len, -1] reads from the back: the read
    returns the cell at position [len + index] and does not raise. *)
Theorem value_from_the_back self :
  - len self <= index self < 0 ->
  exists v, memory self !! Z.to_nat (len self + index self) = Some v /\
            value self = (Ok v, self).
Proof.
  unfold len. intros H. apply value_at. now apply norm_index_from_back.
Qed.

(** X7. The write is all or nothing: with [-len <= index < len] it returns
    and the head and the number of cells are as before; otherwise it raises
    [IndexError] and the object is unchanged. *)
Theorem value_set_bounds self v :
  (in_bounds self ->
     exists self', value_set v self = (Ok tt, self') /\
                   index self' = index self /\ len self' = len self) /\
  (~ in_bounds self ->
     value_set v self =
       (Raise (IndexError "list assignment index out of range"), self)).
Proof.
  unfold in_bounds, len. split; intros H.
  - destruct (norm_index_inside _ _ H) as (p & Hp & _).
    rewrite (value_set_at _ _ _ Hp). eexists. split; [reflexivity|].
    simpl. now rewrite length_insert.
  - apply value_set_outside. now apply norm_index_outside.
Qed.

(** X8. Read-after-write also holds for a negative head within the list:
    whenever [-len <= index < len], writing [v] and reading at once returns
    [v]. *)
Theorem read_after_write_in_bounds self v :
  in_bounds self -> fst ((value_set v ;;; value)%tm self) = Ok v.
Proof.
  unfold in_bounds, len. intros H.
  destruct (norm_index_inside _ _ H) as (p & Hp & Hlt).
  unfold bind. rewrite (value_set_at _ _ _ Hp).
  unfold value, bind, get_memory, get_index, lift, list_getitem. simpl.
  rewrite length_insert, Hp.
  now rewrite list_lookup_insert_eq by exact Hlt.
Qed.

(** X9. Two writes in a row at the same head amount to the second one, in
    every state (off the list both stop at the same [IndexError]). *)
Theorem write_write self v1 v2 :
  (value_set v1 ;;; value_set v2)%tm self = value_set v2 self.
Proof.
  unfold bind.
  destruct (norm_index (length (memory self)) (index self)) as [p|] eqn:Hp.
  - rewrite (value_set_at _ v1 _ Hp), (value_set_at _ v2 _ Hp).
    rewrite (value_set_at (mkTM _ _) v2 p) by (simpl; now rewrite length_insert).
    simpl. now rewrite list_insert_insert_eq.
  - now rewrite (value_set_outside _ v1 Hp), (value_set_outside _ v2 Hp).
Qed.

(** X10. With [-len <= index < len], writing back the value just read
    returns and leaves the object exactly as it was. *)
Theorem write_back_read self :
  in_bounds self -> (v <- value ;; value_set v)%tm self = (Ok tt, self).
Proof.
  unfold in_bounds, len. intros H.
  destruct (norm_index_inside _ _ H) as (p & Hp & _).
  destruct (value_at _ _ Hp) as (v & Hv & Hread).
  unfold bind. rewrite Hread, (value_set_at _ _ _ Hp).
  rewrite (list_insert_id _ _ _ Hv). now destruct self.
Qed.

(** X11. A tape built with [0 <= i < L] reads as the zero object at every
    cell the head can be moved to: after any sequence of moves and reads
    (calls that raised included) the read returns zero. *)
Theorem fresh_tape_reads_zero (L i : Z) (ops : list op) :
  0 <= i < L ->
  forallb (fun o => negb (is_write o)) ops = true ->
  exists self,
    init zero L i = Ok self /\
    value (run ops self) = (Ok zero, run ops self).
Proof.
  intros Hi Hw. rewrite init_memory. eexists. split; [reflexivity|].
  set (self := mkTM (replicate (Z.to_nat L) zero) i).
  assert (HInv : Inv L (run ops self)).
  { apply run_Inv. unfold Inv, I1, len. simpl. rewrite length_replicate. lia. }
  destruct HInv as [HI HL].
  destruct (value_on_tape _ HI) as (v & Hv & Hread).
  rewrite Hread. rewrite (run_memory ops Hw self) in Hv. simpl in Hv.
  apply lookup_replicate in Hv as [-> _]. reflexivity.
Qed.

(** X12. A tape built with [tape_size <= 0] has no cell, and it can never
    be read or written: after any sequence of operations, wherever the head
    is, the read and the write both raise [IndexError]. *)
Theorem empty_tape_unusable (tape_size i : Z) (ops : list op) :
  tape_size <= 0 ->
  exists self,
    init zero tape_size i = Ok self /\
    memory self = [] /\
    value (run ops self) =
      (Raise (IndexError "list index out of range"), run ops self) /\
    forall v, value_set v (run ops self) =
      (Raise (IndexError "list assignment index out of range"), run ops self).
Proof.
  intros Hn. rewrite init_memory. eexists. split; [reflexivity|].
  replace (Z.to_nat tape_size) with 0%nat by lia. simpl.
  split; [reflexivity|].
  set (self := mkTM [] i).
  assert (Hout : norm_index (length (memory (run ops self)))
                            (index (run ops self)) = None).
  { apply norm_index_outside.
    pose proof (run_len ops self) as Hl. unfold len in Hl. simpl in Hl. lia. }
  split.
  - now apply value_outside.
  - intros v. now apply value_set_outside.
Qed.

(** X13. A written cell keeps its value while the head is away: after a
    write of [v] with [-len <= index < len], any sequence of moves and reads
    that brings the head back to the same index reads [v]. *)
Theorem written_cell_persists self v (ops : list op) :
  in_bounds self ->
  forallb (fun o => negb (is_write o)) ops = true ->
  index (run ops (after (WriteCurrent v) self)) = index self ->
  fst (value (run ops (after (WriteCurrent v) self))) = Ok v.
Proof.
  unfold in_bounds, len. intros H Hw Hback.
  destruct (norm_index_inside _ _ H) as (p & Hp & Hlt).
  cbn [after] in *. rewrite (value_set_at _ v _ Hp) in *. simpl in *.
  set (self' := mkTM (<[p := v]> (memory self)) (index self)) in *.
  assert (Hmem : memory (run ops self') = <[p := v]> (memory self))
    by (now rewrite (run_memory ops Hw self')).
  unfold value, bind, get_memory, get_index, lift, list_getitem. simpl.
  rewrite Hmem, Hback, length_insert, Hp.
  now rewrite list_lookup_insert_eq by exact Hlt.
Qed.

End ReadWrite.

(** ** The unit tests, for every fixture *)

Lemma setUp_fixture (ml i : Z) :
  setUp ml i = Ok (mkTM (replicate (Z.to_nat ml) 0) i).
Proof. apply init_memory. Qed.

Lemma assertEqual_refl (a : Z) : assertEqual a a = Passed.
Proof. unfold assertEqual. now rewrite Z.eqb_refl. Qed.

Lemma test_instantiation_eq (ml i : Z) :
  test_instantiation ml i = if ml =? Z.max 0 ml then Passed else Failed.
Proof.
  unfold test_instantiation, with_fixture. rewrite init_memory. simpl.
  rewrite length_replicate, assertEqual_refl.
  replace (Z.of_nat (Z.to_nat ml)) with (Z.max 0 ml) by lia.
  unfold assertEqual, and_then. now destruct (ml =? Z.max 0 ml).
Qed.

Lemma test_length_eq (ml i : Z) :
  test_length ml i = if ml =? Z.max 0 ml then Passed else Failed.
Proof.
  unfold test_length, with_fixture. rewrite setUp_fixture.
  unfold len. simpl. rewrite length_replicate.
  now replace (Z.of_nat (Z.to_nat ml)) with (Z.max 0 ml) by lia.
Qed.

Lemma test_move_left_allowed_eq (ml i : Z) : test_move_left_allowed ml i = Passed.
Proof.
  unfold test_move_left_allowed, with_fixture. now rewrite setUp_fixture.
Qed.

Lemma test_move_left_exception_thrown_eq (ml i : Z) :
  test_move_left_exception_thrown ml i = Passed.
Proof.
  unfold test_move_left_exception_thrown, with_fixture.
  now rewrite setUp_fixture.
Qed.

Lemma test_move_right_allowed_eq (ml i : Z) :
  test_move_right_allowed ml i =
    if Z.max 0 ml =? 2
    then Errored (EndOfTapeException "Unable to move right, reached end of the tape")
    else Passed.
Proof.
  unfold test_move_right_allowed, with_fixture. rewrite setUp_fixture.
  cbv zeta. unfold set_index. cbn [snd memory index].
  set (machine := mkTM (replicate (Z.to_nat ml) 0) 1).
  assert (Hlen : len machine = Z.max 0 ml)
    by (unfold len; simpl; rewrite length_replicate; lia).
  destruct (Z.max 0 ml =? 2) eqn:E.
  - apply Z.eqb_eq in E.
    now rewrite move_right_boundary by (rewrite Hlen; simpl; lia).
  - apply Z.eqb_neq in E.
    now rewrite move_right_inner by (rewrite Hlen; simpl; lia).
Qed.

Lemma test_move_right_exception_thrown_eq (ml i : Z) :
  test_move_right_exception_thrown ml i = Passed.
Proof.
  unfold test_move_right_exception_thrown, with_fixture. rewrite setUp_fixture.
  cbv zeta. unfold set_index. cbn [snd memory index].
  set (machine := mkTM (replicate (Z.to_nat ml) 0) i).
  now rewrite move_right_boundary.
Qed.

Lemma test_read_eq (ml i : Z) :
  test_read ml i =
    match norm_index (Z.to_nat ml) i with
    | Some _ => Passed
    | None => Errored (IndexError "list assignment index out of range")
    end.
Proof.
  unfold test_read, TestRead_setUp, with_fixture. rewrite setUp_fixture.
  unfold list_setitem. simpl. rewrite length_replicate.
  destruct (norm_index (Z.to_nat ml) i) as [p|] eqn:Hp; [|reflexivity].
  unfold value, bind, get_memory, get_index, lift, list_getitem. simpl.
  rewrite length_insert, length_replicate, Hp.
  rewrite list_lookup_insert_eq
    by (rewrite length_replicate; exact (norm_index_bound _ _ _ Hp)).
  reflexivity.
Qed.

Lemma test_write_eq (ml i : Z) :
  test_write ml i =
    match norm_index (Z.to_nat ml) i with
    | Some _ => Passed
    | None => Errored (IndexError "list assignment index out of range")
    end.
Proof.
  unfold test_write, with_fixture. rewrite setUp_fixture. cbv zeta.
  set (machine := mkTM (replicate (Z.to_nat ml) 0) i).
  assert (Hn : norm_index (length (memory machine)) (index machine)
               = norm_index (Z.to_nat ml) i)
    by (simpl; now rewrite length_replicate).
  destruct (norm_index (Z.to_nat ml) i) as [p|] eqn:Hp.
  - rewrite (value_set_at machine 2 p Hn).
    unfold list_getitem. simpl. rewrite length_insert, length_replicate, Hp.
    rewrite list_lookup_insert_eq
      by (rewrite length_replicate; exact (norm_index_bound _ _ _ Hp)).
    reflexivity.
  - now rewrite (value_set_outside machine 2 Hn).
Qed.

(** X14. The eight unit tests all pass exactly for the fixtures with at
    least one cell, not exactly two cells, and an initial index Python
    accepts on the list: [1 <= machine_length], [machine_length <> 2] and
    [-machine_length <= initial_tape_index < machine_length]. *)
Theorem suite_passes_iff (machine_length initial_tape_index : Z) :
  suite_passes machine_length initial_tape_index = true <->
  1 <= machine_length /\ machine_length <> 2 /\
  - machine_length <= initial_tape_index < machine_length.
Proof.
  unfold suite_passes, suite. cbn [forallb].
  rewrite test_instantiation_eq, test_length_eq, test_move_left_allowed_eq,
    test_move_left_exception_thrown_eq, test_move_right_allowed_eq,
    test_move_right_exception_thrown_eq, test_read_eq, test_write_eq.
  destruct (Z.eqb_spec machine_length (Z.max 0 machine_length)) as [E0|E0];
    destruct (Z.eqb_spec (Z.max 0 machine_length) 2) as [E2|E2];
    cbn [is_passed andb]; try (split; [discriminate | lia]).
  destruct (norm_index (Z.to_nat machine_length) initial_tape_index)
    as [p|] eqn:Hp; cbn [is_passed andb].
  - split; [intros _ | reflexivity].
    destruct (Z_le_gt_dec (- machine_length) initial_tape_index) as [Hlo|Hlo];
      [destruct (Z_lt_le_dec initial_tape_index machine_length) as [Hhi|Hhi]|];
      [lia | |];
      rewrite norm_index_outside in Hp by lia; discriminate Hp.
  - split; [discriminate|]. intros (H1 & _ & Hb).
    destruct (norm_index_inside (Z.to_nat machine_length) initial_tape_index)
      as (p & Hq & _); [lia | congruence].
Qed.

(** X15. Whatever the fixture, the two [move_left] tests and the
    [move_right] exception test pass; [test_move_right_allowed] passes
    unless the tape has exactly two cells, where [move_right] from index 1
    raises and the test ends in that error. *)
Theorem move_tests_verdicts (machine_length initial_tape_index : Z) :
  test_move_left_allowed machine_length initial_tape_index = Passed /\
  test_move_left_exception_thrown machine_length initial_tape_index = Passed /\
  test_move_right_exception_thrown machine_length initial_tape_index = Passed /\
  (machine_length <> 2 ->
     test_move_right_allowed machine_length initial_tape_index = Passed) /\
  (machine_length = 2 ->
     test_move_right_allowed machine_length initial_tape_index =
       Errored (EndOfTapeException "Unable to move right, reached end of the tape")).
Proof.
  rewrite test_move_left_allowed_eq, test_move_left_exception_thrown_eq,
    test_move_right_exception_thrown_eq, test_move_right_allowed_eq.
  repeat split; intros H.
  - destruct (Z.max 0 machine_length =? 2) eqn:E; [|reflexivity].
    apply Z.eqb_eq in E. lia.
  - now subst.
Qed.

(** ** Instances *)

Lemma run_keeps_len_witness :
  len (run [MoveRight; WriteCurrent 5; MoveLeft; MoveLeft; ReadCurrent] (tape4 7))
  = len (tape4 7).
Proof. apply (run_keeps_len _ (tape4 7)). Defined.

Lemma run_without_write_keeps_memory_witness :
  memory (run [MoveRight; ReadCurrent; MoveLeft; MoveLeft] (mkTM [1; 2; 3] 0))
  = [1; 2; 3].
Proof.
  apply (run_without_write_keeps_memory
           [MoveRight; ReadCurrent; MoveLeft; MoveLeft] (mkTM [1; 2; 3] 0)).
  reflexivity.
Defined.

Lemma times_move_right_spec_witness :
  times 5 move_right (tape4 1) =
    (Raise (EndOfTapeException "Unable to move right, reached end of the tape"),
     mkTM [0; 0; 0; 0] (len (tape4 1) - 1)) /\
  times 2 move_right (tape4 1) = (Ok tt, mkTM [0; 0; 0; 0] (1 + Z.of_nat 2)) /\
  times 3 move_right (tape4 4) = (Ok tt, mkTM [0; 0; 0; 0] (4 + Z.of_nat 3)).
Proof.
  split; [|split].
  - apply (proj1 (times_move_right_spec 5 (tape4 1))). unfold len. simpl. lia.
  - apply (proj2 (times_move_right_spec 2 (tape4 1))). unfold len. simpl. lia.
  - apply (proj2 (times_move_right_spec 3 (tape4 4))). unfold len. simpl. lia.
Defined.

Lemma times_move_left_spec_witness :
  times 5 move_left (tape4 2) =
    (Raise (EndOfTapeException "Unable to move left, index is at 0"),
     mkTM [0; 0; 0; 0] 0) /\
  times 2 move_left (tape4 3) = (Ok tt, mkTM [0; 0; 0; 0] (3 - Z.of_nat 2)) /\
  times 3 move_left (tape4 (-1)) = (Ok tt, mkTM [0; 0; 0; 0] (-1 - Z.of_nat 3)).
Proof.
  split; [|split].
  - apply (proj1 (times_move_left_spec 5 (tape4 2))). simpl. lia.
  - apply (proj2 (times_move_left_spec 2 (tape4 3))). simpl. lia.
  - apply (proj2 (times_move_left_spec 3 (tape4 (-1)))). simpl. lia.
Defined.

Lemma value_bounds_witness :
  (exists v, value (tape4 (-4)) = (Ok v, tape4 (-4))) /\
  value (tape4 4) = (Raise (IndexError "list index out of range"), tape4 4) /\
  value (tape4 (-5)) = (Raise (IndexError "list index out of range"), tape4 (-5)).
Proof.
  split; [|split].
  - apply (proj1 (value_bounds (tape4 (-4)))). unfold in_bounds, len. simpl. lia.
  - apply (proj2 (value_bounds (tape4 4))). unfold in_bounds, len. simpl. lia.
  - apply (proj2 (value_bounds (tape4 (-5)))). unfold in_bounds, len. simpl. lia.
Defined.

Lemma value_from_the_back_witness :
  exists v,
    memory (mkTM [1; 2; 3] (-1))
      !! Z.to_nat (len (mkTM [1; 2; 3] (-1)) + index (mkTM [1; 2; 3] (-1)))
    = Some v /\
    value (mkTM [1; 2; 3] (-1)) = (Ok v, mkTM [1; 2; 3] (-1)).
Proof. apply (value_from_the_back (mkTM [1; 2; 3] (-1))). unfold len. simpl. lia. Defined.

Lemma value_set_bounds_witness :
  (exists self', value_set 9 (tape4 (-2)) = (Ok tt, self') /\
                 index self' = index (tape4 (-2)) /\
                 len self' = len (tape4 (-2))) /\
  value_set 9 (tape4 4) =
    (Raise (IndexError "list assignment index out of range"), tape4 4).
Proof.
  split.
  - apply (proj1 (value_set_bounds (tape4 (-2)) 9)).
    unfold in_bounds, len. simpl. lia.
  - apply (proj2 (value_set_bounds (tape4 4) 9)).
    unfold in_bounds, len. simpl. lia.
Defined.

Lemma read_after_write_in_bounds_witness :
  fst ((value_set 9 ;;; value)%tm (tape4 (-3))) = Ok 9.
Proof.
  apply (read_after_write_in_bounds (tape4 (-3)) 9).
  unfold in_bounds, len. simpl. lia.
Defined.

Lemma write_write_witness :
  (value_set 1 ;;; value_set 2)%tm (tape4 3) = value_set 2 (tape4 3) /\
  (value_set 1 ;;; value_set 2)%tm (tape4 7) = value_set 2 (tape4 7).
Proof. split; apply write_write. Defined.

Lemma write_back_read_witness :
  (v <- value ;; value_set v)%tm (mkTM [1; 2; 3] 1) = (Ok tt, mkTM [1; 2; 3] 1).
Proof.
  apply (write_back_read (mkTM [1; 2; 3] 1)). unfold in_bounds, len. simpl. lia.
Defined.

Lemma fresh_tape_reads_zero_witness :
  exists self,
    init 0 4 1 = Ok self /\
    value (run [MoveRight; MoveRight; MoveRight; ReadCurrent; MoveLeft] self)
    = (Ok 0, run [MoveRight; MoveRight; MoveRight; ReadCurrent; MoveLeft] self).
Proof.
  apply (fresh_tape_reads_zero 0 4 1
           [MoveRight; MoveRight; MoveRight; ReadCurrent; MoveLeft]);
    [lia | reflexivity].
Defined.

Lemma empty_tape_unusable_witness :
  exists self,
    init 0 0 0 = Ok self /\
    memory self = [] /\
    value (run [MoveRight; MoveLeft; MoveLeft] self) =
      (Raise (IndexError "list index out of range"),
       run [MoveRight; MoveLeft; MoveLeft] self) /\
    forall v, value_set v (run [MoveRight; MoveLeft; MoveLeft] self) =
      (Raise (IndexError "list assignment index out of range"),
       run [MoveRight; MoveLeft; MoveLeft] self).
Proof. apply (empty_tape_unusable 0 0 0 [MoveRight; MoveLeft; MoveLeft]). lia. Defined.

Lemma written_cell_persists_witness :
  fst (value (run [MoveRight; MoveRight; ReadCurrent; MoveLeft; MoveLeft]
                (after (WriteCurrent 9) (tape4 1)))) = Ok 9.
Proof.
  apply (written_cell_persists (tape4 1) 9
           [MoveRight; MoveRight; ReadCurrent; MoveLeft; MoveLeft]);
    [unfold in_bounds, len; simpl; lia | reflexivity | reflexivity].
Defined.

Lemma suite_passes_iff_witness :
  suite_passes 4 0 = true /\
  (suite_passes 2 0 = true -> False) /\
  (suite_passes 4 4 = true -> False).
Proof.
  split; [|split].
  - apply (proj2 (suite_passes_iff 4 0)). lia.
  - intros H. apply (proj1 (suite_passes_iff 2 0)) in H. lia.
  - intros H. apply (proj1 (suite_passes_iff 4 4)) in H. lia.
Defined.

Lemma move_tests_verdicts_witness :
  test_move_right_allowed 4 0 = Passed /\
  test_move_right_allowed 2 0 =
    Errored (EndOfTapeException "Unable to move right, reached end of the tape").
Proof.
  split.
  - apply (proj1 (proj2 (proj2 (proj2 (move_tests_verdicts 4 0))))). lia.
  - apply (proj2 (proj2 (proj2 (proj2 (move_tests_verdicts 2 0))))). reflexivity.
Defined.
